(** * FocusLens: attentiveness classifier and session lifecycle

    A shallow embedding of the two pieces of decision logic of the
    repository:

    - [FocusMonitor] : the [analyzeAttentiveness] closure of
      [src/components/FocusMonitor.tsx] together with the effect that
      installs and clears its 500 ms interval;
    - [Index] : the session handlers of the page component
      ([handleConsentApproved], [handleConsentDeclined],
      [handleStartSession], [handleEndSession], [handleResetSession]).

    JavaScript numbers that carry scores are IEEE-754 binary64 values and
    are modelled by Rocq's primitive floats, so that [>], [<], [*] and [+]
    are the very operations the program performs.  Numbers that the data
    model declares to be integers (seconds distracted, millisecond clock
    readings) are modelled by [Z]. *)

From Stdlib Require Import ZArith Bool String List Lia.
From Stdlib Require Import DecimalString.
From Stdlib Require Import Uint63 PrimFloat SpecFloat FloatOps FloatAxioms.
Import ListNotations.

Set Warnings "-inexact-float".

(* ================================================================== *)
(** ** The fragment of JavaScript the handlers rely on *)
(* ================================================================== *)

Module JS.

Local Open Scope float_scope.

(** A number is falsy when it is [NaN], [+0] or [-0]. *)
Definition falsy (x : float) : bool := is_nan x || is_zero x.

(** [x || 0] on a numeric property that may be absent ([None] stands for
    [undefined]). *)
Definition or_zero (x : option float) : float :=
  match x with
  | Some v => if falsy v then 0 else v
  | None => 0
  end.

(** [x || 0] on an integer-valued property that may be absent. *)
Definition or_zeroZ (x : option Z) : Z :=
  match x with
  | Some v => if (v =? 0)%Z then 0%Z else v
  | None => 0%Z
  end.

(** [Math.floor] on a binary64 value.  The result is an integer when the
    argument is finite; [None] stands for the non-finite results
    ([NaN], [Infinity]), which index no array element. *)
Definition Math_floor (x : float) : option Z :=
  match Prim2SF x with
  | S754_zero _ => Some 0%Z
  | S754_finite s m e =>
      let v := if s then Z.neg m else Z.pos m in
      Some (if (0 <=? e)%Z then v * 2 ^ e else v / 2 ^ (- e))%Z
  | S754_infinity _ => None
  | S754_nan => None
  end.

(** [arr[i]] for a computed index; [None] is [undefined]. *)
Definition index {A : Type} (arr : list A) (i : option Z) : option A :=
  match i with
  | Some z => if (z <? 0)%Z then None else nth_error arr (Z.to_nat z)
  | None => None
  end.

(** [arr.length] as a number. *)
Definition length_number {A : Type} (arr : list A) : float :=
  of_uint63 (Uint63.of_Z (Z.of_nat (List.length arr))).

(** The decimal rendering of an integer inside a template literal (the
    integers at hand are counts of seconds, far below the 10^21 from which
    JavaScript switches to exponent notation). *)
Definition number_to_string (z : Z) : string :=
  NilZero.string_of_int (Z.to_int z).

(** The number a possibly absent numeric property stands for where the
    program compares it or computes with it as it is: [undefined]
    converts to [NaN]. *)
Definition to_number (x : option float) : float :=
  match x with
  | Some v => v
  | None => nan
  end.

(** Two numbers that no comparison tells apart: the same value, or two
    zeros (which may differ in sign). *)
Definition same_number (x y : float) : Prop :=
  x = y \/ (is_zero x = true /\ is_zero y = true).

End JS.

(* ================================================================== *)
(** ** FocusMonitor: the attentiveness classifier *)
(* ================================================================== *)

Module FocusMonitor.

Local Open Scope string_scope.
Local Open Scope float_scope.

(** [focusStats] as delivered by the detection hook.  A property may be
    missing, which is what the [|| 0] guards of the analyser are for. *)
Record FocusStats : Type := mkStats {
  attentionScore : option float;
  posture : option float;
  timeDistracted : option Z
}.

Inductive AttentivenessState : Type :=
| attentive
| distracted
| unknown.

(** What one run of the analyser hands to its two setters.  The
    description is [None] only if the random index selects no element. *)
Record Reading : Type := mkReading {
  state : AttentivenessState;
  description : option string
}.

Definition descriptions : list string :=
  [ "Engaged eye contact maintained";
    "Active listening indicators";
    "Focused facial orientation";
    "Attention signals detected" ].

Definition distractionDescriptions : list string :=
  [ "Attention appears elsewhere";
    "Limited engagement signals";
    "Focus wavering";
    "Attention needs refocusing" ].

(** [arr[Math.floor(Math.random() * arr.length)]], the value of
    [Math.random()] being supplied by the caller. *)
Definition pick (arr : list string) (rnd : float) : option string :=
  JS.index arr (JS.Math_floor (rnd * JS.length_number arr)).

(** The weighted attentiveness score, [(score * 0.6) + (posture * 0.4)]. *)
Definition weighted (score posture : float) : float :=
  (score * 0.6) + (posture * 0.4).

(** The body of [analyzeAttentiveness] on already defaulted metrics. *)
Definition classify (score posture : float) (timeDistracted : Z)
           (rnd : float) : Reading :=
  let attentivenessScore := weighted score posture in
  if 0.65 <? attentivenessScore then
    mkReading attentive
      (if 0.8 <? score then Some "Strong engagement detected"
       else if 0.8 <? posture then Some "Optimal listening posture"
       else pick descriptions rnd)
  else if (attentivenessScore <? 0.4) || (5 <? timeDistracted)%Z then
    mkReading distracted
      (if score <? 0.3 then Some "Limited screen focus detected"
       else if posture <? 0.3 then Some "Posture indicates disengagement"
       else if (5 <? timeDistracted)%Z then
         Some ("Distracted for " ++ JS.number_to_string timeDistracted ++ "s")
       else pick distractionDescriptions rnd)
  else
    mkReading unknown (Some "Processing attention patterns...").

(** [analyzeAttentiveness]: read the captured [focusStats], default the
    falsy metrics to [0], classify.  The diagnostic [console.log] that
    closes the function writes no state and is left out. *)
Definition analyzeAttentiveness (focusStats : FocusStats) (rnd : float)
  : Reading :=
  let score := JS.or_zero (attentionScore focusStats) in
  let posture := JS.or_zero (posture focusStats) in
  let timeDistracted := JS.or_zeroZ (timeDistracted focusStats) in
  classify score posture timeDistracted rnd.

(** The metrics after defaulting, and the weighted score computed from
    them, as [analyzeAttentiveness] names them. *)
Definition score_of (fs : FocusStats) : float :=
  JS.or_zero (attentionScore fs).

Definition posture_of (fs : FocusStats) : float :=
  JS.or_zero (posture fs).

Definition timeDistracted_of (fs : FocusStats) : Z :=
  JS.or_zeroZ (timeDistracted fs).

Definition attentivenessScore (fs : FocusStats) : float :=
  weighted (score_of fs) (posture_of fs).

(** Telemetry with all three metrics present. *)
Definition stats (a p : float) (t : Z) : FocusStats :=
  mkStats (Some a) (Some p) (Some t).

(** A metric that [|| 0] replaces: absent, [NaN] or zero. *)
Definition missing (x : option float) : bool :=
  match x with
  | Some v => JS.falsy v
  | None => true
  end.

Definition missingZ (x : option Z) : bool :=
  match x with
  | Some v => (v =? 0)%Z
  | None => true
  end.

(** The record in which every metric that [|| 0] replaces is written out
    as an explicit zero. *)
Definition defaulted (fs : FocusStats) : FocusStats :=
  mkStats (if missing (attentionScore fs) then Some 0 else attentionScore fs)
          (if missing (posture fs) then Some 0 else posture fs)
          (if missingZ (timeDistracted fs) then Some 0%Z
           else timeDistracted fs).

(** A score inside the unit interval of the data model. *)
Definition unit_interval (x : float) : Prop :=
  (0 <=? x) = true /\ (x <=? 1) = true.

(** *** The component around the analyser *)

(** What a render sees: the [isActive] prop, the hook's camera flags,
    whether [videoRef.current] is set, and the current [focusStats]. *)
Record Props : Type := mkProps {
  isActive : bool;
  facingCamera : bool;
  webcamReady : bool;
  videoElement : bool;
  focusStats : FocusStats
}.

(** The component's own state: the two [useState] cells and the interval
    installed by the effect, if any.  A live interval remembers the
    [focusStats] its callback closed over. *)
Record Monitor : Type := mkMonitor {
  attentivenessState : AttentivenessState;
  attentivenessDescription : option string;
  interval : option FocusStats
}.

Definition initial : Monitor := mkMonitor unknown (Some "") None.

(** The published reading. *)
Definition reading (m : Monitor) : Reading :=
  mkReading (attentivenessState m) (attentivenessDescription m).

(** The guard that opens the effect. *)
Definition sampling_enabled (p : Props) : bool :=
  negb (negb (isActive p) || negb (facingCamera p) || negb (webcamReady p))
  && videoElement p.

(** One run of the effect: the cleanup of the previous run clears its
    interval, then the body either returns early or installs a new one. *)
Definition effect (p : Props) (m : Monitor) : Monitor :=
  mkMonitor (attentivenessState m) (attentivenessDescription m)
            (if sampling_enabled p then Some (focusStats p) else None).

(** One firing of the interval, if one is installed. *)
Definition tick (rnd : float) (m : Monitor) : Monitor :=
  match interval m with
  | Some fs =>
      let r := analyzeAttentiveness fs rnd in
      mkMonitor (state r) (description r) (interval m)
  | None => m
  end.

(** What can happen to a mounted monitor: a render after which the effect
    runs (the mount, or a change of one of its dependencies, among them
    the three flags of the guard and [focusStats]), the cleanup and the
    body being taken as one step; or the timer coming due, with the value
    [Math.random()] would return. *)
Inductive Event : Type :=
| Render (p : Props)
| Tick (rnd : float).

Definition step (m : Monitor) (e : Event) : Monitor :=
  match e with
  | Render p => effect p m
  | Tick rnd => tick rnd m
  end.

Definition run (m : Monitor) (es : list Event) : Monitor :=
  fold_left step es m.

(** An event that leaves the camera inactive: a timer firing, or a
    render whose guard fails. *)
Definition camera_inactive (e : Event) : Prop :=
  match e with
  | Render p => isActive p = false \/ facingCamera p = false
                \/ webcamReady p = false
  | Tick _ => True
  end.

(** *** What the monitor displays *)

(** [getFocusLevel]: the colour class of the focus meter. *)
Definition getFocusLevel (score : float) : string :=
  if 0.8 <? score then "bg-focus-high"
  else if 0.5 <? score then "bg-focus-medium"
  else "bg-focus-low".

(** The class the meter gets in a render,
    [getFocusLevel(focusStats.attentionScore)]. *)
Definition meter_class (fs : FocusStats) : string :=
  getFocusLevel (JS.to_number (attentionScore fs)).

(** The phrases an attentive reading can carry. *)
Definition attentivePhrases : list string :=
  "Strong engagement detected" :: "Optimal listening posture"
    :: descriptions.

(** The phrases a distracted reading can carry when the seconds
    distracted are [t]. *)
Definition distractedPhrases (t : Z) : list string :=
  "Limited screen focus detected" :: "Posture indicates disengagement"
    :: ("Distracted for " ++ JS.number_to_string t ++ "s")
    :: distractionDescriptions.

(** The phrases a reading in a given state can carry. *)
Definition phrases (st : AttentivenessState) (t : Z) : list string :=
  match st with
  | attentive => attentivePhrases
  | distracted => distractedPhrases t
  | unknown => [ "Processing attention patterns..." ]
  end.

(** A value [Math.random()] can return. *)
Definition random_value (rnd : float) : Prop :=
  (0 <=? rnd) = true /\ (rnd <? 1) = true.

End FocusMonitor.

(* ================================================================== *)
(** ** Index: the session lifecycle of the page component *)
(* ================================================================== *)

Module Index.

Local Open Scope string_scope.
Local Open Scope Z_scope.

Inductive ToastVariant : Type :=
| default
| destructive.

Record Toast : Type := mkToast {
  variant : ToastVariant;
  title : string;
  description : string
}.

(** The object literal passed to [generateSessionSummary]. *)
Record SummaryRequest : Type := mkRequest {
  duration : Z;
  averageFocus : option float;
  timeDistracted : option Z;
  transcription : string
}.

(** The spec's five-valued session status. *)
Inductive Status : Type :=
| AwaitingConsent
| ConsentDeclined
| Ready
| Recording
| Complete.

(** What a handler does besides writing its state cells, in program
    order. *)
Inductive Effect : Type :=
| RequestWebcamAccess
| StopWebcamAccess
| GenerateSessionSummary (r : SummaryRequest)
| ShowToast (t : Toast).

(** The user actions and the inputs their handlers read: the outcome of
    the awaited [requestWebcamAccess()], the clock ([new Date()],
    [Date.now()], in milliseconds), and the [focusStats] and
    [transcription] of the current render. *)
Inductive Op : Type :=
| Approve (success : bool)
| Decline
| Start (now : Z)
| End (now : Z) (focusStats : FocusMonitor.FocusStats) (transcript : string)
| ResetSession.

Section Controller.

(** The summary generator is an external collaborator; its result is
    stored and passed on without being inspected. *)
Variable SessionSummary : Type.
Variable generateSessionSummary : SummaryRequest -> SessionSummary.

(** The five [useState] cells of the page. *)
Record Session : Type := mkSession {
  hasConsent : option bool;
  isRecording : bool;
  sessionComplete : bool;
  sessionStartTime : option Z;
  sessionSummary : option SessionSummary
}.

Definition initial : Session := mkSession None false false None None.

Definition handleConsentApproved (success : bool) (s : Session)
  : Session * list Effect :=
  if success then
    (mkSession (Some true) (isRecording s) (sessionComplete s)
               (sessionStartTime s) (sessionSummary s),
     [ RequestWebcamAccess;
       ShowToast (mkToast default "Ready to start"
         "Click 'Start Session' when you're ready to begin") ])
  else
    (s,
     [ RequestWebcamAccess;
       ShowToast (mkToast destructive "Camera access required"
         "Please grant camera access to use FocusLens") ]).

Definition handleConsentDeclined (s : Session) : Session * list Effect :=
  (mkSession (Some false) (isRecording s) (sessionComplete s)
             (sessionStartTime s) (sessionSummary s),
   [ ShowToast (mkToast default "Camera access declined"
       "You can still use the transcription features without camera access.") ]).

Definition handleStartSession (now : Z) (s : Session)
  : Session * list Effect :=
  (mkSession (hasConsent s) true false (Some now) (sessionSummary s),
   [ ShowToast (mkToast default "Session started"
       "Focus monitoring and transcription are now active.") ]).

Definition handleEndSession (now : Z)
           (focusStats : FocusMonitor.FocusStats) (transcript : string)
           (s : Session) : Session * list Effect :=
  if negb (isRecording s) then (s, [])
  else
    let duration :=
      match sessionStartTime s with
      | Some t => (now - t) / 1000
      | None => 0
      end in
    let request :=
      mkRequest duration
                (FocusMonitor.attentionScore focusStats)
                (FocusMonitor.timeDistracted focusStats)
                transcript in
    let summary := generateSessionSummary request in
    (mkSession (hasConsent s) false true (sessionStartTime s)
               (Some summary),
     [ GenerateSessionSummary request;
       StopWebcamAccess;
       ShowToast (mkToast default "Session complete"
         ("Your " ++ JS.number_to_string duration
                  ++ " second session has been analyzed.")) ]).

Definition handleResetSession (s : Session) : Session * list Effect :=
  (mkSession (hasConsent s) (isRecording s) false (sessionStartTime s)
             None,
   []).

(** The status the flags stand for: recording while [isRecording],
    complete while [sessionComplete], otherwise whatever the consent
    cell says. *)
Definition status (s : Session) : Status :=
  if isRecording s then Recording
  else if sessionComplete s then Complete
  else match hasConsent s with
       | None => AwaitingConsent
       | Some true => Ready
       | Some false => ConsentDeclined
       end.

Definition handle (op : Op) (s : Session) : Session * list Effect :=
  match op with
  | Approve success => handleConsentApproved success s
  | Decline => handleConsentDeclined s
  | Start now => handleStartSession now s
  | End now fs tr => handleEndSession now fs tr s
  | ResetSession => handleResetSession s
  end.

Definition step (s : Session) (op : Op) : Session := fst (handle op s).

Definition run (s : Session) (ops : list Op) : Session :=
  fold_left step ops s.

(** The states the page can be in. *)
Inductive reachable : Session -> Prop :=
| reachable_initial : reachable initial
| reachable_step s op : reachable s -> reachable (step s op).

(** The summary invariant of the data model. *)
Definition summary_iff_complete (s : Session) : Prop :=
  sessionSummary s <> None <-> status s = Complete.

(** What every reachable state satisfies: a recording session has a start
    time and is not complete, and a complete session has a summary. *)
Definition well_formed (s : Session) : Prop :=
  (isRecording s = true -> sessionStartTime s <> None) /\
  (isRecording s = true -> sessionComplete s = false) /\
  (sessionComplete s = true -> sessionSummary s <> None).

(** Whether a handler called the summary generator. *)
Definition invokes_generator (es : list Effect) : bool :=
  existsb (fun e => match e with
                    | GenerateSessionSummary _ => true
                    | _ => false
                    end) es.

End Controller.

Arguments mkSession {SessionSummary}.
Arguments hasConsent {SessionSummary}.
Arguments isRecording {SessionSummary}.
Arguments sessionComplete {SessionSummary}.
Arguments sessionStartTime {SessionSummary}.
Arguments sessionSummary {SessionSummary}.
Arguments initial {SessionSummary}.
Arguments handleConsentApproved {SessionSummary}.
Arguments handleConsentDeclined {SessionSummary}.
Arguments handleStartSession {SessionSummary}.
Arguments handleEndSession {SessionSummary}.
Arguments handleResetSession {SessionSummary}.
Arguments status {SessionSummary}.
Arguments handle {SessionSummary}.
Arguments step {SessionSummary}.
Arguments run {SessionSummary}.
Arguments reachable {SessionSummary}.
Arguments summary_iff_complete {SessionSummary}.
Arguments well_formed {SessionSummary}.

(** A summary generator for running the handlers on concrete inputs: the
    summary is the request it was built from. *)
Definition echo (r : SummaryRequest) : SummaryRequest := r.

(** A session with consent granted that is being recorded, the same
    session once ended, and the ended session started again without a
    reset in between. *)
Definition recording : Session SummaryRequest :=
  run echo initial [ Approve true; Start 0 ].

Definition completed : Session SummaryRequest :=
  run echo recording [ End 4500 (FocusMonitor.stats 0.5 0.5 3) "hello" ].

Definition restarted : Session SummaryRequest :=
  run echo completed [ Start 9000 ].

(** A session completed after consent was declined. *)
Definition completed_without_camera : Session SummaryRequest :=
  run echo initial
      [ Decline; Start 0; End 4500 (FocusMonitor.mkStats None None None) "" ].

(** What [handleEndSession] shows once the summary is stored. *)
Definition completion_toast (duration : Z) : Toast :=
  mkToast default "Session complete"
    ("Your " ++ JS.number_to_string duration
             ++ " second session has been analyzed.").

(** *** The page around the handlers *)

(** The three trees [renderContent] chooses between: the consent prompt
    (which carries the approve and decline handlers), the summary (which
    carries the reset handler), and the main grid with the monitor and the
    transcription. *)
Inductive View : Type :=
| ConsentView
| SummaryView
| MainView.

(** Truthiness of a value that is an object or [null]. *)
Definition truthy {A : Type} (o : option A) : bool :=
  match o with
  | Some _ => true
  | None => false
  end.

Definition renderContent {SessionSummary : Type}
           (s : Session SessionSummary) : View :=
  match hasConsent s with
  | None => ConsentView
  | Some _ =>
      if sessionComplete s && truthy (sessionSummary s) then SummaryView
      else MainView
  end.

(** [isRecording && hasConsent === true]: the [isActive] prop of the
    monitor and the [enabled] option of the detection hook. *)
Definition monitor_active {SessionSummary : Type}
           (s : Session SessionSummary) : bool :=
  isRecording s &&
  match hasConsent s with
  | Some true => true
  | _ => false
  end.

(** Everything the handlers of a run do besides writing state, in
    order. *)
Fixpoint run_effects {SessionSummary : Type}
         (generate : SummaryRequest -> SessionSummary)
         (s : Session SessionSummary) (ops : list Op) : list Effect :=
  match ops with
  | [] => []
  | op :: ops' =>
      snd (handle generate op s)
          ++ run_effects generate (step generate s op) ops'
  end.

Definition is_generate (e : Effect) : bool :=
  match e with
  | GenerateSessionSummary _ => true
  | _ => false
  end.

Definition is_release (e : Effect) : bool :=
  match e with
  | StopWebcamAccess => true
  | _ => false
  end.

Definition is_start (op : Op) : bool :=
  match op with
  | Start _ => true
  | _ => false
  end.

(** An action that can write the consent cell: a decline, or an approval
    whose acquisition succeeds. *)
Definition decides_consent (op : Op) : bool :=
  match op with
  | Approve success => success
  | Decline => true
  | _ => false
  end.

Definition count {A : Type} (f : A -> bool) (l : list A) : nat :=
  List.length (filter f l).

End Index.

(* ================================================================== *)
(** ** Binary64 comparisons and the scaling of a random value *)
(* ================================================================== *)

Module Binary64.

Local Open Scope Z_scope.

(** Only [NaN] differs from itself. *)
Lemma is_nan_spec (x : float) : is_nan x = true -> Prim2SF x = S754_nan.
Proof.
  unfold is_nan. rewrite eqb_spec. unfold SFeqb.
  destruct (Prim2SF x) as [s|s| |s m e]; simpl; try reflexivity.
  - discriminate.
  - destruct s; discriminate.
  - rewrite Z.compare_refl, Pos.compare_cont_refl. destruct s; discriminate.
Qed.

Lemma is_zero_spec (x : float) :
  is_zero x = true -> exists s, Prim2SF x = S754_zero s.
Proof.
  unfold is_zero. rewrite eqb_spec.
  change (Prim2SF zero) with (S754_zero false). unfold SFeqb.
  destruct (Prim2SF x) as [s|s| |s m e]; simpl.
  - intros _. exists s. reflexivity.
  - destruct s; discriminate.
  - discriminate.
  - destruct s; discriminate.
Qed.

(** No comparison with [NaN] succeeds. *)
Lemma ltb_nan_r (c x : float) : is_nan x = true -> (c <? x)%float = false.
Proof.
  intros H. rewrite ltb_spec, (is_nan_spec x H). unfold SFltb.
  destruct (Prim2SF c); reflexivity.
Qed.

(** Nothing positive is below a zero. *)
Lemma ltb_zero_r (c x : float) :
  (0 <? c)%float = true -> is_zero x = true -> (c <? x)%float = false.
Proof.
  intros Hc Hx. destruct (is_zero_spec x Hx) as [s Hs].
  rewrite ltb_spec in Hc |- *. rewrite Hs.
  change (Prim2SF 0%float) with (S754_zero false) in Hc.
  unfold SFltb in *.
  destruct (Prim2SF c) as [sc|sc| |sc mc ec]; simpl in *;
    try discriminate; try reflexivity;
    destruct sc; try discriminate; reflexivity.
Qed.

Lemma SFltb_leb_trans a b c :
  SFltb a b = true -> SFleb b c = true -> SFltb a c = true.
Proof.
  unfold SFltb, SFleb.
  destruct a as [sa|sa| |sa ma ea], b as [sb|sb| |sb mb eb],
           c as [sc|sc| |sc mc ec]; simpl;
    try discriminate; try reflexivity;
    repeat match goal with s : bool |- _ => destruct s end;
    simpl; try discriminate; try reflexivity.
  all: rewrite ?Pos.compare_cont_spec; simpl.
  all: destruct (Z.compare_spec ea eb), (Z.compare_spec eb ec); simpl;
       try discriminate; try reflexivity;
       destruct (Z.compare_spec ea ec); simpl; try lia; try reflexivity;
       subst.
  all: destruct (Pos.compare_spec ma mb), (Pos.compare_spec mb mc); simpl;
       try discriminate; try reflexivity;
       destruct (Pos.compare_spec ma mc); simpl; try lia; try reflexivity.
Qed.

(** [c < x] and [x <= y] give [c < y]. *)
Lemma ltb_leb_trans (c x y : float) :
  (c <? x)%float = true -> (x <=? y)%float = true -> (c <? y)%float = true.
Proof. rewrite !ltb_spec, leb_spec. apply SFltb_leb_trans. Qed.

(** *** Values that differ at most in the sign of a zero *)

Lemma zero_is_zero (x : float) s :
  Prim2SF x = S754_zero s -> is_zero x = true.
Proof.
  intros H. unfold is_zero. rewrite eqb_spec, H. reflexivity.
Qed.

Lemma leb_not_nan (c x : float) :
  (c <=? x)%float = true -> is_nan x = false.
Proof.
  intros H. destruct (is_nan x) eqn:N; [|reflexivity].
  rewrite leb_spec, (is_nan_spec x N) in H. unfold SFleb in H.
  destruct (Prim2SF c); discriminate.
Qed.

(** [x || 0] hands on a number that is not [NaN] as it is, up to the sign
    of a zero. *)
Lemma or_zero_same (x : float) :
  (0 <=? x)%float = true -> JS.same_number (JS.or_zero (Some x)) x.
Proof.
  intros H. unfold JS.or_zero, JS.falsy.
  rewrite (leb_not_nan _ _ H). simpl.
  destruct (is_zero x) eqn:Z; [right; split; [reflexivity|exact Z]|].
  left; reflexivity.
Qed.

Lemma mul_same (c x y : float) :
  JS.same_number x y -> JS.same_number (c * x)%float (c * y)%float.
Proof.
  intros [->|[Hx Hy]]; [left; reflexivity|].
  destruct (is_zero_spec x Hx) as [sx Ex].
  destruct (is_zero_spec y Hy) as [sy Ey].
  pose proof (mul_spec c x) as Mx. pose proof (mul_spec c y) as My.
  rewrite Ex in Mx. rewrite Ey in My. unfold SF64mul, SFmul in Mx, My.
  destruct (Prim2SF c) as [sc|sc| |sc mc ec].
  - right. split; eapply zero_is_zero; eassumption.
  - left. apply Prim2SF_inj. congruence.
  - left. apply Prim2SF_inj. congruence.
  - right. split; eapply zero_is_zero; eassumption.
Qed.

Lemma add_same (x x' y y' : float) :
  JS.same_number x x' -> JS.same_number y y' ->
  JS.same_number (x + y)%float (x' + y')%float.
Proof.
  intros [->|[Hx Hx']] [->|[Hy Hy']]; [left; reflexivity| | |].
  - destruct (is_zero_spec y Hy) as [sy Ey].
    destruct (is_zero_spec y' Hy') as [sy' Ey'].
    pose proof (add_spec x' y) as A. pose proof (add_spec x' y') as A'.
    rewrite Ey in A. rewrite Ey' in A'. unfold SF64add, SFadd in A, A'.
    destruct (Prim2SF x') as [sx|sx| |sx mx ex].
    + right. split; [destruct sx, sy | destruct sx, sy'];
        eapply zero_is_zero; eassumption.
    + left. apply Prim2SF_inj. congruence.
    + left. apply Prim2SF_inj. congruence.
    + left. apply Prim2SF_inj. congruence.
  - destruct (is_zero_spec x Hx) as [sx Ex].
    destruct (is_zero_spec x' Hx') as [sx' Ex'].
    pose proof (add_spec x y') as A. pose proof (add_spec x' y') as A'.
    rewrite Ex in A. rewrite Ex' in A'. unfold SF64add, SFadd in A, A'.
    destruct (Prim2SF y') as [sy|sy| |sy my ey].
    + right. split; [destruct sx, sy | destruct sx', sy];
        eapply zero_is_zero; eassumption.
    + left. apply Prim2SF_inj. congruence.
    + left. apply Prim2SF_inj. congruence.
    + left. apply Prim2SF_inj. congruence.
  - destruct (is_zero_spec x Hx) as [sx Ex].
    destruct (is_zero_spec x' Hx') as [sx' Ex'].
    destruct (is_zero_spec y Hy) as [sy Ey].
    destruct (is_zero_spec y' Hy') as [sy' Ey'].
    pose proof (add_spec x y) as A. pose proof (add_spec x' y') as A'.
    rewrite Ex, Ey in A. rewrite Ex', Ey' in A'.
    unfold SF64add, SFadd in A, A'.
    right. split; [destruct sx, sy | destruct sx', sy'];
      eapply zero_is_zero; eassumption.
Qed.

(** Comparisons do not see the sign of a zero. *)
Lemma ltb_same (c x y : float) :
  JS.same_number x y ->
  (c <? x)%float = (c <? y)%float /\ (x <? c)%float = (y <? c)%float.
Proof.
  intros [->|[Hx Hy]]; [split; reflexivity|].
  destruct (is_zero_spec x Hx) as [sx Ex].
  destruct (is_zero_spec y Hy) as [sy Ey].
  rewrite !ltb_spec, Ex, Ey. unfold SFltb.
  destruct (Prim2SF c); split; reflexivity.
Qed.

(** *** Multiplying a value of the unit interval by four *)

Lemma digits2_size m : digits2_pos m = Pos.size m.
Proof. induction m; simpl; congruence. Qed.

Lemma digits2_upper m : Z.pos m < 2 ^ Z.pos (digits2_pos m).
Proof.
  rewrite digits2_size.
  pose proof (Pos.size_gt m) as H.
  apply Pos2Z.pos_lt_pos in H. rewrite Pos2Z.inj_pow in H. exact H.
Qed.

Lemma digits2_lower m : 2 ^ (Z.pos (digits2_pos m) - 1) <= Z.pos m.
Proof.
  rewrite digits2_size.
  pose proof (Pos.size_le m) as H.
  apply Pos2Z.pos_le_pos in H. rewrite Pos2Z.inj_xO, Pos2Z.inj_pow in H.
  replace (Z.pos (Pos.size m)) with (Z.succ (Z.pos (Pos.size m) - 1))
    in H at 1 by lia.
  rewrite Z.pow_succ_r in H by lia. lia.
Qed.

Lemma shr_iter_exact k : forall q,
  iter_pos shr_1 k
    {| shr_m := Z.pos (Pos.iter xO q k); shr_r := false; shr_s := false |}
  = {| shr_m := Z.pos q; shr_r := false; shr_s := false |}.
Proof.
  induction k as [k IH|k IH|]; intros q; cbn [iter_pos Pos.iter].
  - change (shr_1 {| shr_m := Z.pos (Pos.iter xO (Pos.iter xO q k) k)~0;
                     shr_r := false; shr_s := false |})
      with {| shr_m := Z.pos (Pos.iter xO (Pos.iter xO q k) k);
              shr_r := false; shr_s := false |}.
    rewrite !IH. reflexivity.
  - rewrite !IH. reflexivity.
  - reflexivity.
Qed.

Lemma digits2_iter k : forall q,
  Z.pos (digits2_pos (Pos.iter xO q k)) = Z.pos (digits2_pos q) + Z.pos k.
Proof.
  induction k as [k IH|k IH|]; intros q; simpl Pos.iter.
  - simpl digits2_pos. rewrite Pos2Z.inj_succ, !IH. lia.
  - rewrite !IH. lia.
  - simpl. lia.
Qed.

(** Rounding a mantissa whose [k] low bits are zero, when the format
    asks for a shift by exactly [k], drops those bits and nothing else. *)
Lemma round_exact_shift s q k ex :
  fexp prec emax (Z.pos (digits2_pos q) + Z.pos k + ex) = ex + Z.pos k ->
  ex + Z.pos k <= emax - prec ->
  binary_round_aux prec emax s (Z.pos (Pos.iter xO q k)) ex loc_Exact
  = S754_finite s q (ex + Z.pos k).
Proof.
  intros Hf Hb.
  unfold binary_round_aux, shr_fexp. unfold Zdigits2 at 1.
  rewrite digits2_iter, Hf.
  replace (ex + Z.pos k - ex) with (Z.pos k) by lia.
  unfold shr at 1. simpl shr_record_of_loc.
  rewrite shr_iter_exact.
  cbn [shr_m shr_r shr_s loc_of_shr_record round_nearest_even
       shr_record_of_loc Zdigits2].
  replace (Z.pos (digits2_pos q) + (ex + Z.pos k))
    with (Z.pos (digits2_pos q) + Z.pos k + ex) by lia.
  rewrite Hf, Z.sub_diag. cbn [shr shr_m].
  apply Z.leb_le in Hb. rewrite Hb. reflexivity.
Qed.

(** Four times a positive binary64 value below one: the product is
    exact, has a negative exponent and is below four. *)
Lemma times_four m e :
  bounded prec emax m e = true -> e <= -53 ->
  exists m' e',
    SF64mul (S754_finite false m e) (Prim2SF 4%float)
      = S754_finite false m' e' /\
    e' < 0 /\ Z.pos m' < 4 * 2 ^ (- e').
Proof.
  intros Hb He.
  unfold bounded, canonical_mantissa in Hb.
  apply andb_prop in Hb as [Hc _]. apply Z.eqb_eq in Hc.
  pose proof (digits2_upper m) as Hu.
  change (Prim2SF 4%float) with (S754_finite false 4503599627370496 (-50)).
  unfold SF64mul, SFmul. cbn [xorb].
  rewrite Pos.mul_comm.
  set (d := Z.pos (digits2_pos m)) in *.
  assert (Hd : 0 < d) by (subst d; lia).
  unfold fexp, emin, prec, emax in Hc.
  destruct (Z.le_gt_cases (-1074) (d + e - 53)) as [Hn|Hs].
  - (* normal: 53 significant bits, shift by 52 *)
    assert (d = 53) by lia.
    exists m, (e + 2). split; [|split; [lia|]].
    + change (4503599627370496 * m)%positive with (Pos.iter xO m 52).
      replace (e + 2) with (e + -50 + 52) by lia.
      apply round_exact_shift.
      * fold d. unfold fexp, emin, prec, emax. lia.
      * unfold prec, emax. lia.
    + assert (2 ^ d <= 4 * 2 ^ (- (e + 2))).
      { replace (4 * 2 ^ (- (e + 2))) with (2 ^ (2 + - (e + 2))).
        - apply Z.pow_le_mono_r; lia.
        - rewrite Z.pow_add_r by lia. reflexivity. }
      lia.
  - assert (e = -1074) by lia. subst e.
    assert (Hbig : 2 ^ 53 <= 2 ^ 1073) by (apply Z.pow_le_mono_r; lia).
    assert (H1074 : 2 ^ 1074 = 2 * 2 ^ 1073)
      by (change 1074 with (Z.succ 1073); apply Z.pow_succ_r; lia).
    destruct (Z.le_gt_cases d 51) as [Hd51|Hd52].
    + (* subnormal, shift by 50 *)
      exists (Pos.iter xO m 2), (-1074). split; [|split; [lia|]].
      * change (4503599627370496 * m)%positive
          with (Pos.iter xO (Pos.iter xO m 2) 50).
        change (-1074) with (-1074 + -50 + 50) at 2.
        apply round_exact_shift.
        -- rewrite digits2_iter. fold d.
           unfold fexp, emin, prec, emax. lia.
        -- unfold prec, emax. lia.
      * change (- -1074) with 1074.
        change (Z.pos (Pos.iter xO m 2)) with (Z.pos m~0~0).
        rewrite (Pos2Z.inj_xO (m~0)), (Pos2Z.inj_xO m).
        assert (2 ^ d <= 2 ^ 53) by (apply Z.pow_le_mono_r; lia).
        lia.
    + (* subnormal with 52 bits, shift by 51 *)
      assert (d = 52) by lia.
      exists (Pos.iter xO m 1), (-1073). split; [|split; [lia|]].
      * change (4503599627370496 * m)%positive
          with (Pos.iter xO (Pos.iter xO m 1) 51).
        change (-1073) with (-1074 + -50 + 51).
        apply round_exact_shift.
        -- rewrite digits2_iter. fold d.
           unfold fexp, emin, prec, emax. lia.
        -- unfold prec, emax. lia.
      * change (- -1073) with 1073.
        change (Z.pos (Pos.iter xO m 1)) with (Z.pos m~0).
        rewrite (Pos2Z.inj_xO m).
        assert (2 ^ d <= 2 ^ 53) by (apply Z.pow_le_mono_r; lia).
        lia.
Qed.

(** [Math.floor(rnd * 4)] for a value [0 <= rnd < 1] is one of 0, 1, 2
    and 3. *)
Lemma floor_times_four (rnd : float) :
  (0 <=? rnd)%float = true -> (rnd <? 1)%float = true ->
  exists z, JS.Math_floor (rnd * 4)%float = Some z /\ 0 <= z < 4.
Proof.
  intros H0 H1. unfold JS.Math_floor.
  rewrite leb_spec in H0. rewrite ltb_spec in H1.
  change (Prim2SF 0%float) with (S754_zero false) in H0.
  change (Prim2SF 1%float)
    with (S754_finite false 4503599627370496 (-52)) in H1.
  pose proof (Prim2SF_valid rnd) as Hv.
  rewrite mul_spec.
  destruct (Prim2SF rnd) as [s|s| |s m e].
  - exists 0. split; [reflexivity|lia].
  - destruct s; discriminate.
  - discriminate.
  - destruct s; [discriminate|].
    unfold SFltb in H1. cbn [SFcompare] in H1.
    change (bounded prec emax m e = true) in Hv.
    assert (He : e <= -53).
    { destruct (Z.compare_spec e (-52)) as [E|E|E];
        [|lia|discriminate].
      exfalso. subst e.
      rewrite Pos.compare_cont_spec in H1. cbn [Pos.switch_Eq] in H1.
      destruct (Pos.compare_spec m 4503599627370496) as [E|E|E];
        try discriminate.
      pose proof (digits2_lower m) as Hl.
      unfold bounded, canonical_mantissa in Hv.
      apply andb_prop in Hv as [Hc _]. apply Z.eqb_eq in Hc.
      unfold fexp, emin, prec, emax in Hc.
      assert (Hd : Z.pos (digits2_pos m) = 53) by (clear - Hc; lia).
      rewrite Hd in Hl.
      assert (P52 : 2 ^ (53 - 1) = 4503599627370496)
        by (vm_compute; reflexivity).
      rewrite P52 in Hl. apply Pos2Z.pos_lt_pos in E. clear - Hl E. lia. }
    destruct (times_four m e Hv He) as (m' & e' & Hm & He' & Hlt).
    rewrite Hm.
    exists (Z.pos m' / 2 ^ (- e')). split.
    + destruct (Z.leb_spec 0 e'); [lia|reflexivity].
    + assert (0 < 2 ^ (- e')) by (apply Z.pow_pos_nonneg; lia).
      split.
      * apply Z.div_pos; lia.
      * apply Z.div_lt_upper_bound; lia.
Qed.

End Binary64.

(* ================================================================== *)
(** ** Properties of the classifier *)
(* ================================================================== *)

Module FocusMonitorFacts.

Import FocusMonitor.
Local Open Scope string_scope.
Local Open Scope float_scope.

(** The state half of [classify], branch by branch. *)
Lemma classify_state score posture t rnd :
  state (classify score posture t rnd) =
  if 0.65 <? weighted score posture then attentive
  else if (weighted score posture <? 0.4) || (5 <? t)%Z then distracted
  else unknown.
Proof.
  unfold classify.
  destruct (0.65 <? weighted score posture); [reflexivity|].
  destruct ((weighted score posture <? 0.4) || (5 <? t)%Z); reflexivity.
Qed.

Lemma analyze_state fs rnd :
  state (analyzeAttentiveness fs rnd) =
  if 0.65 <? attentivenessScore fs then attentive
  else if (attentivenessScore fs <? 0.4) || (5 <? timeDistracted_of fs)%Z
       then distracted
       else unknown.
Proof. apply classify_state. Qed.

(** C1, as written, fails: with attentionScore = 0.9, posture = 0.9 and
    timeDistracted = 6 (all inside the data model's ranges) the weighted
    score exceeds 0.65, the first branch is taken, and the state is
    attentive, not distracted. *)
Lemma high_score_beats_distraction_override :
  unit_interval 0.9 /\ (5 < 6)%Z /\
  (0.65 <? attentivenessScore (stats 0.9 0.9 6)) = true /\
  analyzeAttentiveness (stats 0.9 0.9 6) 0 =
    mkReading attentive (Some "Strong engagement detected") /\
  state (analyzeAttentiveness (stats 0.9 0.9 6) 0) <> distracted.
Proof.
  repeat split; try reflexivity; try lia.
  vm_compute. discriminate.
Qed.

(** C1, amended: when timeDistracted > 5 the state is distracted unless
    the weighted score is above 0.65, in which case the high-score branch
    has already made it attentive. *)
Theorem distraction_override_after_high_bound fs rnd :
  (5 < timeDistracted_of fs)%Z ->
  state (analyzeAttentiveness fs rnd) =
  if 0.65 <? attentivenessScore fs then attentive else distracted.
Proof.
  intros Ht. rewrite analyze_state.
  destruct (0.65 <? attentivenessScore fs); [reflexivity|].
  apply Z.ltb_lt in Ht. rewrite Ht, orb_true_r. reflexivity.
Qed.

Lemma distraction_override_after_high_bound_witness :
  (5 < timeDistracted_of (stats 0.5 0.5 6))%Z /\
  state (analyzeAttentiveness (stats 0.5 0.5 6) 0) = distracted /\
  state (analyzeAttentiveness (stats 0.9 0.9 6) 0) = attentive.
Proof.
  split; [vm_compute; reflexivity|].
  split.
  - exact (distraction_override_after_high_bound (stats 0.5 0.5 6) 0
             ltac:(vm_compute; reflexivity)).
  - exact (distraction_override_after_high_bound (stats 0.9 0.9 6) 0
             ltac:(vm_compute; reflexivity)).
Defined.

(** C7: the three reference scenarios give exactly the stated state and
    description, whatever the random source returns. *)
Theorem reference_scenarios rnd :
  analyzeAttentiveness (stats 0.9 0.9 0) rnd =
    mkReading attentive (Some "Strong engagement detected") /\
  analyzeAttentiveness (stats 0.2 0.2 0) rnd =
    mkReading distracted (Some "Limited screen focus detected") /\
  analyzeAttentiveness (stats 0.5 0.5 0) rnd =
    mkReading unknown (Some "Processing attention patterns...").
Proof. repeat split. Qed.

(** C8: the state is a function of the three metrics alone.  Two runs of
    the analyser on equal triples agree on the state for every pair of
    values of the random source, and so do two timer firings of monitors
    whose intervals closed over equal triples, whatever the monitors
    published before. *)
Theorem state_independent_of_random_source fs1 fs2 rnd1 rnd2 m1 m2 :
  attentionScore fs1 = attentionScore fs2 ->
  posture fs1 = posture fs2 ->
  timeDistracted fs1 = timeDistracted fs2 ->
  state (analyzeAttentiveness fs1 rnd1) =
    state (analyzeAttentiveness fs2 rnd2) /\
  (interval m1 = Some fs1 -> interval m2 = Some fs2 ->
   attentivenessState (tick rnd1 m1) = attentivenessState (tick rnd2 m2)).
Proof.
  intros Ha Hp Ht.
  assert (E : state (analyzeAttentiveness fs1 rnd1) =
              state (analyzeAttentiveness fs2 rnd2)).
  { rewrite !analyze_state.
    unfold attentivenessScore, score_of, posture_of, timeDistracted_of.
    rewrite Ha, Hp, Ht. reflexivity. }
  split; [exact E|].
  intros H1 H2. unfold tick. rewrite H1, H2. exact E.
Qed.

Lemma state_independent_of_random_source_witness :
  state (analyzeAttentiveness (stats 0.7 0.7 0) 0) =
    state (analyzeAttentiveness (stats 0.7 0.7 0) 0.75) /\
  description (analyzeAttentiveness (stats 0.7 0.7 0) 0) <>
    description (analyzeAttentiveness (stats 0.7 0.7 0) 0.75).
Proof.
  split.
  - exact (proj1 (state_independent_of_random_source
                    (stats 0.7 0.7 0) (stats 0.7 0.7 0) 0 0.75
                    initial initial eq_refl eq_refl eq_refl)).
  - vm_compute. discriminate.
Defined.

(** *** Binary64 facts *)

(** Multiplication of binary64 values commutes, so the order in which the
    program writes a metric and its weight is immaterial. *)
Lemma float_mul_comm (x y : float) : x * y = y * x.
Proof.
  apply Prim2SF_inj. rewrite !mul_spec.
  unfold SF64mul, SFmul.
  destruct (Prim2SF x) as [sx|sx| |sx mx ex],
           (Prim2SF y) as [sy|sy| |sy my ey];
    try reflexivity; try (rewrite (xorb_comm sx sy); reflexivity).
  rewrite (xorb_comm sx sy), (Pos.mul_comm mx my), (Z.add_comm ex ey).
  reflexivity.
Qed.

Lemma weighted_weights_first score posture :
  weighted score posture = 0.6 * score + 0.4 * posture.
Proof.
  unfold weighted.
  rewrite (float_mul_comm score 0.6), (float_mul_comm posture 0.4).
  reflexivity.
Qed.

(** The weighted score the analyser computes from scores of the unit
    interval is [0.6 * attentionScore + 0.4 * posture] of the telemetry as
    it came, up to the sign of a zero. *)
Lemma attentivenessScore_of_telemetry a p t :
  unit_interval a -> unit_interval p ->
  JS.same_number (attentivenessScore (stats a p t)) (0.6 * a + 0.4 * p).
Proof.
  intros [Ha _] [Hp _].
  unfold attentivenessScore, score_of, posture_of. simpl.
  rewrite weighted_weights_first.
  apply Binary64.add_same; apply Binary64.mul_same;
    apply Binary64.or_zero_same; assumption.
Qed.

(** The seconds distracted of the telemetry reach the classifier as they
    are. *)
Lemma timeDistracted_of_telemetry a p t :
  timeDistracted_of (mkStats a p (Some t)) = t.
Proof.
  unfold timeDistracted_of. simpl.
  destruct (Z.eqb_spec t 0); [symmetry; assumption|reflexivity].
Qed.

(** C2: on a telemetry triple with attentionScore and posture in [0,1]
    and timeDistracted [t], with [w = 0.6 * attentionScore + 0.4 * posture]
    computed from the telemetry, the state is attentive exactly when
    [w > 0.65]; otherwise distracted exactly when [w < 0.4] or [t > 5];
    otherwise unknown.  The analyser's own weighted score is [w] (up to
    the sign of a zero, and exactly [w] when neither score is a zero).  A
    weighted score of exactly 0.65 is not attentive, and one of exactly
    0.4 with [t <= 5] is unknown. *)
Theorem classification_rule a p t rnd :
  unit_interval a -> unit_interval p ->
  let w := 0.6 * a + 0.4 * p in
  let st := state (analyzeAttentiveness (stats a p t) rnd) in
  JS.same_number (attentivenessScore (stats a p t)) w /\
  (JS.falsy a = false -> JS.falsy p = false ->
   attentivenessScore (stats a p t) = w) /\
  (st = attentive <-> (0.65 <? w) = true) /\
  (st = distracted <->
     (0.65 <? w) = false /\ ((w <? 0.4) = true \/ (5 < t)%Z)) /\
  (st = unknown <->
     (0.65 <? w) = false /\ (w <? 0.4) = false /\ (t <= 5)%Z) /\
  (w = 0.65 -> st <> attentive) /\
  (w = 0.4 -> (t <= 5)%Z -> st = unknown).
Proof.
  intros Ha Hp w st.
  pose proof (attentivenessScore_of_telemetry a p t Ha Hp) as Hsame.
  fold w in Hsame.
  assert (Hst : st = if 0.65 <? w then attentive
                     else if (w <? 0.4) || (5 <? t)%Z then distracted
                     else unknown).
  { unfold st. rewrite analyze_state.
    rewrite (timeDistracted_of_telemetry (Some a) (Some p) t
             : timeDistracted_of (stats a p t) = t).
    rewrite (proj1 (Binary64.ltb_same 0.65 _ _ Hsame)).
    rewrite (proj2 (Binary64.ltb_same 0.4 _ _ Hsame)). reflexivity. }
  split; [exact Hsame|].
  split.
  { intros Fa Fp. unfold attentivenessScore, score_of, posture_of. simpl.
    rewrite Fa, Fp. apply weighted_weights_first. }
  assert (Hattentive : st = attentive <-> (0.65 <? w) = true).
  { rewrite Hst. destruct (0.65 <? w); [tauto|].
    destruct ((w <? 0.4) || (5 <? t)%Z); split; discriminate. }
  split; [exact Hattentive|].
  split; [|split; [|split]].
  - rewrite Hst. destruct (0.65 <? w).
    + split; [discriminate|]. intros [H _]; discriminate.
    + destruct (w <? 0.4); simpl.
      * split; auto.
      * destruct (Z.ltb_spec 5 t); split; auto; try discriminate.
        intros [_ [H'|H']]; [discriminate|lia].
  - rewrite Hst. destruct (0.65 <? w).
    + split; [discriminate|]. intros [H _]; discriminate.
    + destruct (w <? 0.4); simpl.
      * split; [discriminate|]. intros [_ [H _]]; discriminate.
      * destruct (Z.ltb_spec 5 t); split; auto; try discriminate.
        intros [_ [_ H']]; lia.
  - intros Hw Habs. apply Hattentive in Habs.
    rewrite Hw in Habs. discriminate Habs.
  - intros Hw Ht. rewrite Hst, Hw.
    change (0.65 <? 0.4) with false. change (0.4 <? 0.4) with false.
    destruct (Z.ltb_spec 5 t); [lia|reflexivity].
Qed.

Lemma classification_rule_witness :
  unit_interval 0.5 /\ unit_interval 0.65 /\ unit_interval 0.4 /\
  unit_interval 0.9 /\
  state (analyzeAttentiveness (stats 0.5 0.5 6) 0) = distracted /\
  state (analyzeAttentiveness (stats 0.5 0.5 5) 0) = unknown /\
  state (analyzeAttentiveness (stats 0.9 0.9 0) 0) = attentive /\
  attentivenessScore (stats 0.65 0.65 0) = 0.65 /\
  state (analyzeAttentiveness (stats 0.65 0.65 0) 0) <> attentive /\
  attentivenessScore (stats 0.4 0.4 5) = 0.4 /\
  state (analyzeAttentiveness (stats 0.4 0.4 5) 0) = unknown.
Proof.
  assert (U5 : unit_interval 0.5) by (split; reflexivity).
  assert (U65 : unit_interval 0.65) by (split; reflexivity).
  assert (U4 : unit_interval 0.4) by (split; reflexivity).
  assert (U9 : unit_interval 0.9) by (split; reflexivity).
  pose proof (classification_rule 0.5 0.5 6 0 U5 U5) as R6.
  pose proof (classification_rule 0.5 0.5 5 0 U5 U5) as R5.
  pose proof (classification_rule 0.9 0.9 0 0 U9 U9) as R9.
  pose proof (classification_rule 0.65 0.65 0 0 U65 U65) as R65.
  pose proof (classification_rule 0.4 0.4 5 0 U4 U4) as R4.
  cbv zeta in R6, R5, R9, R65, R4.
  destruct R6 as (_ & _ & _ & D6 & _).
  destruct R5 as (_ & _ & _ & _ & K5 & _).
  destruct R9 as (_ & _ & A9 & _).
  destruct R65 as (_ & E65 & _ & _ & _ & B65 & _).
  destruct R4 as (_ & E4 & _ & _ & _ & _ & B4).
  refine (conj U5 (conj U65 (conj U4 (conj U9
           (conj _ (conj _ (conj _ (conj _ (conj _ (conj _ _)))))))))).
  - apply (proj2 D6). split; [reflexivity|]. right. lia.
  - apply (proj2 K5). split; [reflexivity|]. split; [reflexivity|]. lia.
  - apply (proj2 A9). reflexivity.
  - exact (E65 eq_refl eq_refl).
  - exact (B65 eq_refl).
  - exact (E4 eq_refl eq_refl).
  - exact (B4 eq_refl ltac:(lia)).
Defined.

(** C10: a metric that is absent or falsy is read as 0, the analyser
    being a total function that returns a reading for every telemetry
    record; with all three metrics missing the weighted score is 0 and the
    state is distracted. *)
Theorem missing_metrics_default_to_zero fs rnd :
  (missing (attentionScore fs) = true -> score_of fs = 0) /\
  (missing (posture fs) = true -> posture_of fs = 0) /\
  (missingZ (timeDistracted fs) = true -> timeDistracted_of fs = 0%Z) /\
  analyzeAttentiveness fs rnd = analyzeAttentiveness (defaulted fs) rnd /\
  attentivenessScore (mkStats None None None) = 0 /\
  analyzeAttentiveness (mkStats None None None) rnd =
    mkReading distracted (Some "Limited screen focus detected").
Proof.
  assert (Hs : forall x, missing x = true -> JS.or_zero x = 0).
  { intros [v|]; simpl; [|reflexivity]. intros ->. reflexivity. }
  assert (Hz : forall x, missingZ x = true -> JS.or_zeroZ x = 0%Z).
  { intros [v|]; simpl; [|reflexivity]. intros ->. reflexivity. }
  split; [apply Hs|]. split; [apply Hs|]. split; [apply Hz|].
  split; [|split; reflexivity].
  unfold analyzeAttentiveness, defaulted; simpl.
  f_equal.
  - destruct (missing (attentionScore fs)) eqn:E; [|reflexivity].
    rewrite (Hs _ E). reflexivity.
  - destruct (missing (posture fs)) eqn:E; [|reflexivity].
    rewrite (Hs _ E). reflexivity.
  - destruct (missingZ (timeDistracted fs)) eqn:E; [|reflexivity].
    rewrite (Hz _ E). reflexivity.
Qed.

Lemma missing_metrics_default_to_zero_witness :
  score_of (mkStats (Some nan) None (Some 7%Z)) = 0 /\
  posture_of (mkStats (Some nan) None (Some 7%Z)) = 0 /\
  timeDistracted_of (mkStats (Some 0.9) (Some 0.9) None) = 0%Z /\
  state (analyzeAttentiveness (mkStats (Some nan) None (Some 7%Z)) 0)
    = distracted.
Proof.
  split; [|split; [|split]].
  - exact (proj1 (missing_metrics_default_to_zero
                    (mkStats (Some nan) None (Some 7%Z)) 0) eq_refl).
  - exact (proj1 (proj2 (missing_metrics_default_to_zero
                    (mkStats (Some nan) None (Some 7%Z)) 0)) eq_refl).
  - exact (proj1 (proj2 (proj2 (missing_metrics_default_to_zero
                    (mkStats (Some 0.9) (Some 0.9) None) 0))) eq_refl).
  - reflexivity.
Defined.

(** *** The effect and its interval *)

Lemma inactive_render_clears_interval p m :
  camera_inactive (Render p) -> interval (effect p m) = None.
Proof.
  simpl. unfold effect, sampling_enabled. simpl.
  intros [H|[H|H]]; rewrite H; simpl; rewrite ?orb_true_r; reflexivity.
Qed.

Lemma no_interval_no_change es :
  forall m, interval m = None -> Forall camera_inactive es ->
            interval (run m es) = None /\ reading (run m es) = reading m.
Proof.
  induction es as [|e es IH]; intros m Hm Hes; [split; [exact Hm|reflexivity]|].
  inversion Hes as [|e' es' He Hes']; subst.
  change (run m (e :: es)) with (run (step m e) es).
  assert (Hstep : interval (step m e) = None /\
                  reading (step m e) = reading m).
  { destruct e as [p|rnd]; simpl.
    - split; [exact (inactive_render_clears_interval p m He)|reflexivity].
    - unfold tick. rewrite Hm. split; [exact Hm|reflexivity]. }
  destruct Hstep as [Hi Hr].
  destruct (IH (step m e) Hi Hes') as [Hi' Hr'].
  split; [exact Hi'|]. rewrite Hr'. exact Hr.
Qed.

(** C9: once a render finds the monitor inactive, the camera not ready or
    not facing, the interval is cleared, and as long as every later render
    is of that kind no timer firing runs the analyser: the published state
    and description stay what they were, whatever telemetry the renders
    carry and however often the timer would have fired. *)
Theorem reading_frozen_while_camera_inactive m p es :
  camera_inactive (Render p) ->
  Forall camera_inactive es ->
  interval (run m (Render p :: es)) = None /\
  attentivenessState (run m (Render p :: es)) = attentivenessState m /\
  attentivenessDescription (run m (Render p :: es))
    = attentivenessDescription m.
Proof.
  intros Hp Hes.
  change (run m (Render p :: es)) with (run (effect p m) es).
  destruct (no_interval_no_change es (effect p m)
              (inactive_render_clears_interval p m Hp) Hes) as [Hi Hr].
  split; [exact Hi|].
  unfold reading in Hr. simpl in Hr. inversion Hr. split; reflexivity.
Qed.

Lemma reading_frozen_while_camera_inactive_witness :
  let live := run initial
                [Render (mkProps true true true true (stats 0.9 0.9 0));
                 Tick 0] in
  let away := mkProps true false true true (stats 0.1 0.1 30) in
  attentivenessState live = attentive /\
  state (analyzeAttentiveness (focusStats away) 0) = distracted /\
  attentivenessState (run live [Render away; Tick 0; Render away; Tick 0.5])
    = attentive.
Proof.
  intros live away.
  split; [reflexivity|]. split; [reflexivity|].
  refine (eq_trans
    (proj1 (proj2 (reading_frozen_while_camera_inactive live away
                     [Tick 0; Render away; Tick 0.5] _ _))) eq_refl).
  - simpl. right; left; reflexivity.
  - apply Forall_cons; [exact I|].
    apply Forall_cons; [simpl; right; left; reflexivity|].
    apply Forall_cons; [exact I|]. apply Forall_nil.
Defined.

End FocusMonitorFacts.


(* ================================================================== *)
(** ** Properties of the session lifecycle *)
(* ================================================================== *)

Module IndexFacts.

Import Index.
Local Open Scope string_scope.
Local Open Scope Z_scope.

Section Lifecycle.

Variable SessionSummary : Type.
Variable generate : SummaryRequest -> SessionSummary.

Local Abbreviation Session := (Session SessionSummary).
Local Abbreviation reachable := (reachable generate).
Local Abbreviation step := (step generate).
Local Abbreviation handleEndSession := (handleEndSession generate).

Lemma step_well_formed (s : Session) op :
  well_formed s -> well_formed (step s op).
Proof.
  intros (Ht & Hc & Hs).
  destruct op as [success| |now|now fs tr|]; unfold Index.step; simpl.
  - destruct success; simpl; repeat split; simpl; assumption.
  - repeat split; simpl; assumption.
  - repeat split; simpl; intros; discriminate.
  - unfold Index.handleEndSession.
    destruct (isRecording s) eqn:E; simpl.
    + repeat split; simpl; intros; discriminate.
    + repeat split; simpl; try assumption; rewrite E; discriminate.
  - repeat split; simpl; try assumption; intros; discriminate.
Qed.

Lemma reachable_well_formed (s : Session) : reachable s -> well_formed s.
Proof.
  induction 1 as [|s op _ IH].
  - repeat split; intros; discriminate.
  - apply step_well_formed, IH.
Qed.

Lemma run_reachable ops :
  forall s : Session, reachable s -> reachable (run generate s ops).
Proof.
  induction ops as [|op ops IH]; intros s Hs; [exact Hs|].
  apply IH. apply reachable_step, Hs.
Qed.

Lemma status_Recording (s : Session) :
  status s = Recording <-> isRecording s = true.
Proof.
  unfold status. destruct (isRecording s); [tauto|].
  destruct (sessionComplete s); [split; discriminate|].
  destruct (hasConsent s) as [[|]|]; split; discriminate.
Qed.

Lemma status_Complete (s : Session) :
  status s = Complete <->
  isRecording s = false /\ sessionComplete s = true.
Proof.
  unfold status. destruct (isRecording s).
  - split; [discriminate|]. intros [H _]; discriminate.
  - destruct (sessionComplete s); [tauto|].
    destruct (hasConsent s) as [[|]|]; split;
      try discriminate; intros [_ H]; discriminate.
Qed.

(** C3, amended: when the acquisition fails, [handleConsentApproved]
    writes no state cell, so the status is what it was (a session that
    awaits consent keeps awaiting it and the prompt is offered again); the
    failure surfaces as a destructive notice, nothing is thrown and no
    status stands for an error.  It is the explicit decline that moves a
    session awaiting consent to ConsentDeclined, and a successful
    acquisition that moves it to Ready. *)
Theorem failed_acquisition_leaves_session_unchanged (s : Session) :
  handleConsentApproved false s =
    (s, [ RequestWebcamAccess;
          ShowToast (mkToast destructive "Camera access required"
                       "Please grant camera access to use FocusLens") ]) /\
  status (fst (handleConsentApproved false s)) = status s /\
  (status s = AwaitingConsent ->
   status (fst (handleConsentDeclined s)) = ConsentDeclined /\
   status (fst (handleConsentApproved true s)) = Ready).
Proof.
  split; [reflexivity|]. split; [reflexivity|].
  unfold status; simpl.
  destruct (isRecording s); [discriminate|].
  destruct (sessionComplete s); [discriminate|].
  intros _. split; reflexivity.
Qed.

(** C4, amended: in a state in which the summary invariant of the data
    model holds, [handleResetSession] called outside Complete is a no-op;
    called in Complete it clears the summary, leaves the consent cell as
    it is, and lands on the status that cell stands for: Ready when
    consent had been granted, ConsentDeclined when the session had been
    run after a decline.  No consent is asked again in either case. *)
Theorem resetSession_clears_completion (s : Session) :
  reachable s -> summary_iff_complete s ->
  (status s <> Complete -> handleResetSession s = (s, [])) /\
  (status s = Complete ->
   let s' := fst (handleResetSession s) in
   snd (handleResetSession s) = [] /\
   sessionSummary s' = None /\
   hasConsent s' = hasConsent s /\
   status s' = match hasConsent s with
               | Some true => Ready
               | Some false => ConsentDeclined
               | None => AwaitingConsent
               end).
Proof.
  intros Hr Hinv. destruct (reachable_well_formed s Hr) as (_ & Hc & _).
  split.
  - intros Hn.
    assert (E : sessionComplete s = false).
    { destruct (isRecording s) eqn:R; [apply Hc; reflexivity|].
      destruct (sessionComplete s) eqn:C; [|reflexivity].
      exfalso. apply Hn. apply status_Complete. split; assumption. }
    assert (M : sessionSummary s = None).
    { destruct (sessionSummary s) eqn:M; [|reflexivity].
      exfalso. apply Hn. apply Hinv. rewrite M. discriminate. }
    unfold Index.handleResetSession.
    destruct s as [c r d t m]; simpl in *. rewrite E, M. reflexivity.
  - intros Hcomp. apply status_Complete in Hcomp as [R C].
    split; [reflexivity|]. split; [reflexivity|]. split; [reflexivity|].
    unfold status; simpl. rewrite R. reflexivity.
Qed.

(** The summary invariant survives every handler except a start from a
    state that still holds a summary. *)
Lemma summary_invariant_preserved (s : Session) op :
  summary_iff_complete s ->
  (forall now, op = Start now -> sessionSummary s = None) ->
  summary_iff_complete (step s op).
Proof.
  unfold summary_iff_complete. rewrite !status_Complete.
  intros Hinv Hstart.
  destruct op as [success| |now|now fs tr|]; unfold Index.step; simpl.
  - destruct success; exact Hinv.
  - exact Hinv.
  - rewrite (Hstart now eq_refl).
    split; [congruence|]. intros [H _]; discriminate.
  - unfold Index.handleEndSession.
    destruct (isRecording s) eqn:E; simpl; [|rewrite E; exact Hinv].
    split; [intros _; split; reflexivity|discriminate].
  - split; [congruence|]. intros [_ H]; discriminate.
Qed.

(** A complete session always holds a summary. *)
Lemma complete_has_summary (s : Session) :
  reachable s -> status s = Complete -> sessionSummary s <> None.
Proof.
  intros Hr Hc. apply status_Complete in Hc as [_ Hc].
  destruct (reachable_well_formed s Hr) as (_ & _ & Hs). apply Hs, Hc.
Qed.

(** C6: outside Recording [handleEndSession] changes nothing and does not
    call the generator.  While Recording it takes the floor of the elapsed
    milliseconds over 1000 as the duration, calls the generator with that
    duration, the current attention score, the seconds distracted and the
    transcription, stores the result as the summary, moves to Complete and
    releases the webcam. *)
Theorem endSession_only_while_recording
        (s : Session) now fs transcript :
  reachable s ->
  (status s <> Recording ->
   handleEndSession now fs transcript s = (s, []) /\
   invokes_generator (snd (handleEndSession now fs transcript s)) = false) /\
  (status s = Recording ->
   exists startedAt,
     sessionStartTime s = Some startedAt /\
     let request :=
       mkRequest ((now - startedAt) / 1000)
                 (FocusMonitor.attentionScore fs)
                 (FocusMonitor.timeDistracted fs)
                 transcript in
     let s' := fst (handleEndSession now fs transcript s) in
     snd (handleEndSession now fs transcript s) =
       [ GenerateSessionSummary request;
         StopWebcamAccess;
         ShowToast (completion_toast ((now - startedAt) / 1000)) ] /\
     sessionSummary s' = Some (generate request) /\
     status s' = Complete /\
     hasConsent s' = hasConsent s).
Proof.
  intros Hr. destruct (reachable_well_formed s Hr) as (Ht & _ & _).
  split.
  - intros Hn. unfold Index.handleEndSession.
    destruct (isRecording s) eqn:E.
    + exfalso. apply Hn. apply status_Recording. exact E.
    + split; reflexivity.
  - intros Hrec. apply status_Recording in Hrec.
    destruct (sessionStartTime s) as [t|] eqn:Et;
      [|exfalso; apply (Ht Hrec); reflexivity].
    exists t. split; [reflexivity|].
    unfold Index.handleEndSession. rewrite Hrec, Et. simpl.
    repeat split.
Qed.

End Lifecycle.

(** *** Concrete runs *)

(** C3, as written, fails: a failed acquisition from the initial state
    leaves the session awaiting consent; it does not move it to
    ConsentDeclined. *)
Lemma failed_acquisition_keeps_awaiting_consent :
  status (fst (handleConsentApproved false (@initial SummaryRequest)))
    = AwaitingConsent /\
  status (fst (handleConsentApproved false (@initial SummaryRequest)))
    <> ConsentDeclined.
Proof. split; [reflexivity|discriminate]. Qed.

Lemma failed_acquisition_leaves_session_unchanged_witness :
  status (@initial SummaryRequest) = AwaitingConsent /\
  status (fst (handleConsentDeclined (@initial SummaryRequest)))
    = ConsentDeclined /\
  status (fst (handleConsentApproved true (@initial SummaryRequest)))
    = Ready.
Proof.
  split; [reflexivity|].
  exact (proj2 (proj2 (failed_acquisition_leaves_session_unchanged
                         SummaryRequest initial)) eq_refl).
Defined.

Lemma recording_reachable : reachable echo recording.
Proof. apply run_reachable, reachable_initial. Qed.

Lemma completed_reachable : reachable echo completed.
Proof. apply run_reachable, recording_reachable. Qed.

Lemma restarted_reachable : reachable echo restarted.
Proof. apply run_reachable, completed_reachable. Qed.

Lemma completed_without_camera_reachable :
  reachable echo completed_without_camera.
Proof. apply run_reachable, reachable_initial. Qed.

(** C4, as written, fails: decline the camera, start and end a session.
    The session is Complete, the summary invariant holds, and the page
    shows the summary with its reset control; the reset then leads to
    ConsentDeclined, not to Ready. *)
Lemma reset_after_declined_consent_is_not_ready :
  reachable echo completed_without_camera /\
  summary_iff_complete completed_without_camera /\
  status completed_without_camera = Complete /\
  renderContent completed_without_camera = SummaryView /\
  status (fst (handleResetSession completed_without_camera))
    = ConsentDeclined /\
  status (fst (handleResetSession completed_without_camera)) <> Ready.
Proof.
  split; [exact completed_without_camera_reachable|].
  split; [split; [reflexivity|discriminate]|].
  split; [reflexivity|]. split; [reflexivity|].
  split; [reflexivity|discriminate].
Qed.

Lemma resetSession_clears_completion_witness :
  status completed = Complete /\
  sessionSummary completed <> None /\
  sessionSummary (fst (handleResetSession completed)) = None /\
  status (fst (handleResetSession completed)) = Ready /\
  status recording = Recording /\
  handleResetSession recording = (recording, []).
Proof.
  assert (Ic : summary_iff_complete completed)
    by (split; [reflexivity|discriminate]).
  assert (Ir : summary_iff_complete recording).
  { split; [intros H; exfalso; apply H; reflexivity|discriminate]. }
  pose proof (resetSession_clears_completion SummaryRequest echo
                completed completed_reachable Ic) as Hc.
  pose proof (resetSession_clears_completion SummaryRequest echo
                recording recording_reachable Ir) as Hr.
  split; [reflexivity|]. split; [discriminate|].
  split; [exact (proj1 (proj2 (proj2 Hc eq_refl)))|].
  split; [exact (proj2 (proj2 (proj2 (proj2 Hc eq_refl))))|].
  split; [reflexivity|].
  apply (proj1 Hr). discriminate.
Defined.

(** C5, evaluated on the code: approve, start, end, start again.  The
    invariant holds when the first session is complete; after the second
    start the status is Recording while the summary of the first session
    is still stored, so "summary is non-null iff status is Complete" is
    broken in a reachable state.  [handleStartSession] writes
    [sessionComplete := false] but, unlike [handleResetSession], leaves
    [sessionSummary] as it is. *)
Theorem restart_keeps_previous_summary :
  reachable echo restarted /\
  summary_iff_complete completed /\
  restarted = fst (handleStartSession 9000 completed) /\
  status restarted = Recording /\
  sessionSummary restarted =
    Some (mkRequest 4 (Some 0.5%float) (Some 3) "hello") /\
  ~ summary_iff_complete restarted.
Proof.
  split; [exact restarted_reachable|].
  split; [split; [reflexivity|discriminate]|].
  split; [reflexivity|]. split; [reflexivity|]. split; [reflexivity|].
  intros [H _].
  assert (E : status restarted = Complete) by (apply H; discriminate).
  discriminate E.
Qed.

Lemma endSession_only_while_recording_witness :
  status recording = Recording /\
  sessionSummary
    (fst (handleEndSession echo 4500 (FocusMonitor.stats 0.5 0.5 3)
                           "hello" recording))
    = Some (mkRequest 4 (Some 0.5%float) (Some 3) "hello") /\
  handleEndSession echo 4500 (FocusMonitor.stats 0.5 0.5 3) "hello"
                   completed
    = (completed, []).
Proof.
  split; [reflexivity|].
  pose proof (endSession_only_while_recording SummaryRequest echo
                recording 4500 (FocusMonitor.stats 0.5 0.5 3) "hello"
                recording_reachable) as Hr.
  pose proof (endSession_only_while_recording SummaryRequest echo
                completed 4500 (FocusMonitor.stats 0.5 0.5 3) "hello"
                completed_reachable) as Hc.
  split.
  - destruct (proj2 Hr eq_refl) as (t & Et & _ & Hs & _).
    injection Et as <-. exact Hs.
  - refine (proj1 (proj1 Hc _)). discriminate.
Defined.

End IndexFacts.


(* ================================================================== *)
(** ** Sessions as sequences of user actions *)
(* ================================================================== *)

Module SessionTraces.

Import Index.
Local Open Scope string_scope.
Local Open Scope Z_scope.

Section Traces.

Variable SessionSummary : Type.
Variable generate : SummaryRequest -> SessionSummary.

Local Abbreviation Session := (Session SessionSummary).
Local Abbreviation reachable := (reachable generate).
Local Abbreviation run := (run generate).
Local Abbreviation step := (step generate).
Local Abbreviation handleEndSession := (handleEndSession generate).

Lemma run_app (s : Session) ops1 ops2 :
  run s (ops1 ++ ops2) = run (run s ops1) ops2.
Proof. apply fold_left_app. Qed.

(** The summary view, the only tree that carries the reset handler, is
    shown exactly in the Complete states whose consent has been decided;
    the [&& sessionSummary] half of its test never decides. *)
Theorem summary_view_iff_complete (s : Session) :
  reachable s ->
  (renderContent s = SummaryView <->
   status s = Complete /\ hasConsent s <> None) /\
  (renderContent s = SummaryView -> sessionSummary s <> None).
Proof.
  intros Hr.
  destruct (IndexFacts.reachable_well_formed _ _ s Hr) as (_ & Hc & Hs).
  unfold renderContent. split.
  - rewrite IndexFacts.status_Complete.
    destruct (hasConsent s) as [b|].
    + destruct (sessionComplete s) eqn:C; simpl.
      * destruct (sessionSummary s) eqn:M; simpl.
        -- destruct (isRecording s) eqn:R.
           ++ specialize (Hc eq_refl). discriminate.
           ++ split; [intros _; repeat split; discriminate|reflexivity].
        -- exfalso. apply (Hs eq_refl). reflexivity.
      * split; [discriminate|]. intros [[_ H] _]. discriminate.
    + split; [discriminate|]. intros [_ H]. congruence.
  - destruct (hasConsent s); [|discriminate].
    destruct (sessionComplete s); simpl; [|discriminate].
    destruct (sessionSummary s); simpl; [discriminate|discriminate].
Qed.

(** Ending a session twice is harmless: whatever the state, the second
    call writes nothing, generates no second summary and releases
    nothing. *)
Theorem endSession_twice (s : Session) now1 fs1 tr1 now2 fs2 tr2 :
  handleEndSession now2 fs2 tr2 (fst (handleEndSession now1 fs1 tr1 s))
  = (fst (handleEndSession now1 fs1 tr1 s), []).
Proof.
  unfold Index.handleEndSession at 2 3.
  destruct (isRecording s) eqn:E; simpl.
  - reflexivity.
  - unfold Index.handleEndSession. rewrite E. reflexivity.
Qed.

(** A whole cycle from Ready (start, end, reset) comes back to Ready with
    the consent kept and no summary held; the one summary request of the
    cycle carries the floor of the elapsed seconds. *)
Theorem session_cycle_returns_to_ready (s : Session) t0 t1 fs tr :
  status s = Ready ->
  let ops := [ Start t0; End t1 fs tr; ResetSession ] in
  status (run s ops) = Ready /\
  run s ops = mkSession (Some true) false false (Some t0) None /\
  filter is_generate (run_effects generate s ops) =
    [ GenerateSessionSummary
        (mkRequest ((t1 - t0) / 1000) (FocusMonitor.attentionScore fs)
                   (FocusMonitor.timeDistracted fs) tr) ].
Proof.
  unfold status.
  destruct (isRecording s); [discriminate|].
  destruct (sessionComplete s); [discriminate|].
  destruct (hasConsent s) as [[|]|] eqn:C; try discriminate.
  intros _.
  unfold Index.run, Index.step; simpl. rewrite C.
  repeat split.
Qed.

(** [handleStartSession] is unguarded: a start during a recording
    overwrites the start time, so the summary of the session measures
    from the latest start, whatever came before. *)
Theorem duration_counts_from_latest_start (s : Session) t0 t1 now fs tr :
  let s' := run s [ Start t0; Start t1 ] in
  status s' = Recording /\
  snd (handleEndSession now fs tr s') =
    [ GenerateSessionSummary
        (mkRequest ((now - t1) / 1000) (FocusMonitor.attentionScore fs)
                   (FocusMonitor.timeDistracted fs) tr);
      StopWebcamAccess;
      ShowToast (completion_toast ((now - t1) / 1000)) ].
Proof. split; reflexivity. Qed.

Lemma count_app {A : Type} (f : A -> bool) (l1 l2 : list A) :
  count f (l1 ++ l2) = (count f l1 + count f l2)%nat.
Proof. unfold count. rewrite filter_app, length_app. reflexivity. Qed.

(** Over any sequence of actions from any state, every generated summary
    is paired with one release of the webcam, and summaries never
    outnumber starts: each one closes a recording that was open at the
    beginning or opened by a start of the sequence. *)
Theorem one_summary_per_recording ops :
  forall s : Session,
    count is_generate (run_effects generate s ops)
      = count is_release (run_effects generate s ops) /\
    (count is_generate (run_effects generate s ops)
       + Nat.b2n (isRecording (run s ops))
     <= count is_start ops + Nat.b2n (isRecording s))%nat.
Proof.
  induction ops as [|op ops IH]; intros s.
  - split; [reflexivity|]. simpl. lia.
  - change (run s (op :: ops)) with (run (step s op) ops).
    change (run_effects generate s (op :: ops))
      with (snd (handle generate op s)
              ++ run_effects generate (step s op) ops)%list.
    rewrite !count_app.
    destruct (IH (step s op)) as [IH1 IH2].
    rewrite (count_app is_start [op] ops : count is_start (op :: ops) = _).
    assert (H : count is_generate (snd (handle generate op s))
                = count is_release (snd (handle generate op s)) /\
                (count is_generate (snd (handle generate op s))
                   + Nat.b2n (isRecording (step s op))
                 <= count is_start [op] + Nat.b2n (isRecording s))%nat).
    { clear IH IH1 IH2.
      destruct s as [c r d t m].
      destruct op as [success| |now|now fs tr|];
        unfold Index.step, count; simpl;
        try (unfold Index.handleEndSession; simpl);
        try (destruct success); destruct r; simpl;
        (split; [reflexivity|lia]). }
    destruct H as [H1 H2]. split; lia.
Qed.

Lemma run_keeps_consent ops :
  forall s : Session,
    forallb (fun op => negb (decides_consent op)) ops = true ->
    hasConsent (run s ops) = hasConsent s.
Proof.
  induction ops as [|op ops IH]; intros s H; [reflexivity|].
  simpl in H. apply andb_prop in H as [Hop Hops].
  change (run s (op :: ops)) with (run (step s op) ops).
  rewrite (IH _ Hops).
  destruct op as [success| |now|now fs tr|]; unfold Index.step; simpl.
  - destruct success; [discriminate Hop|reflexivity].
  - discriminate Hop.
  - reflexivity.
  - unfold Index.handleEndSession. destruct (isRecording s); reflexivity.
  - reflexivity.
Qed.

(** The consent cell is written by a decline and by a successful approval
    only: sessions may be started, ended and reset, and acquisitions may
    fail, any number of times without the consent changing.  So unless
    consent was granted before, the monitor stays inactive through all of
    them and no render of it enables sampling. *)
Theorem consent_kept_by_session_actions ops (s : Session) :
  forallb (fun op => negb (decides_consent op)) ops = true ->
  hasConsent (run s ops) = hasConsent s /\
  (hasConsent s <> Some true ->
   monitor_active (run s ops) = false /\
   forall p, FocusMonitor.isActive p = monitor_active (run s ops) ->
             FocusMonitor.sampling_enabled p = false).
Proof.
  intros H. pose proof (run_keeps_consent ops s H) as Hk.
  split; [exact Hk|]. intros Hn.
  assert (Hm : monitor_active (run s ops) = false).
  { unfold monitor_active. rewrite Hk.
    destruct (hasConsent s) as [[|]|]; [congruence| |];
      apply andb_false_r. }
  split; [exact Hm|].
  intros p Hp. unfold FocusMonitor.sampling_enabled.
  rewrite Hp, Hm. reflexivity.
Qed.

(** In every reachable state a session that is being recorded has its
    start time set and is not marked complete. *)
Theorem recording_has_start_time (s : Session) :
  reachable s -> status s = Recording ->
  sessionStartTime s <> None /\ sessionComplete s = false.
Proof.
  intros Hr Hs. apply IndexFacts.status_Recording in Hs.
  destruct (IndexFacts.reachable_well_formed _ _ s Hr) as (Ht & Hc & _).
  split; [exact (Ht Hs)|exact (Hc Hs)].
Qed.

(** The monitor is active exactly while a session is being recorded with
    consent granted, and then the page shows the main grid, the one tree
    in which the monitor is mounted. *)
Theorem monitor_active_while_recording (s : Session) :
  reachable s ->
  (monitor_active s = true <->
   status s = Recording /\ hasConsent s = Some true) /\
  (monitor_active s = true -> renderContent s = MainView).
Proof.
  intros Hr.
  destruct (IndexFacts.reachable_well_formed _ _ s Hr) as (_ & Hc & _).
  unfold monitor_active, renderContent.
  rewrite IndexFacts.status_Recording.
  destruct (isRecording s) eqn:R; simpl.
  - rewrite (Hc eq_refl). simpl.
    destruct (hasConsent s) as [[|]|]; split;
      try reflexivity; try discriminate;
      (split; [discriminate|intros [_ H]; discriminate]) || tauto.
  - split; [|discriminate].
    split; [discriminate|intros [H _]; discriminate].
Qed.

End Traces.

(** *** Concrete runs *)

Lemma summary_view_iff_complete_witness :
  renderContent completed = SummaryView /\
  status completed = Complete /\
  status completed_without_camera = Complete /\
  renderContent (run echo initial [ Start 0; End 1 (FocusMonitor.stats 1 1 0) "" ])
    = ConsentView.
Proof.
  split; [reflexivity|].
  split; [|split; reflexivity].
  exact (proj1 (proj1 (proj1 (summary_view_iff_complete
                         SummaryRequest echo completed
                         IndexFacts.completed_reachable)) eq_refl)).
Defined.

Lemma session_cycle_returns_to_ready_witness :
  status (run echo initial [ Approve true ]) = Ready /\
  status (run echo initial
              [ Approve true; Start 0;
                End 4500 (FocusMonitor.stats 0.5 0.5 3) "hello";
                ResetSession ]) = Ready.
Proof.
  split; [reflexivity|].
  exact (proj1 (session_cycle_returns_to_ready SummaryRequest echo
                  (run echo initial [ Approve true ]) 0 4500
                  (FocusMonitor.stats 0.5 0.5 3) "hello" eq_refl)).
Defined.

Lemma consent_kept_by_session_actions_witness :
  hasConsent (run echo recording
                  [ End 10 (FocusMonitor.stats 0 0 0) ""; ResetSession;
                    Approve false; Start 20 ])
  = Some true /\
  monitor_active (run echo completed_without_camera
                      [ ResetSession; Approve false; Start 20 ])
  = false.
Proof.
  split.
  - exact (proj1 (consent_kept_by_session_actions SummaryRequest echo
             [ End 10 (FocusMonitor.stats 0 0 0) ""; ResetSession;
               Approve false; Start 20 ] recording eq_refl)).
  - refine (proj1 (proj2 (consent_kept_by_session_actions
             SummaryRequest echo [ ResetSession; Approve false; Start 20 ]
             completed_without_camera eq_refl) _)).
    discriminate.
Defined.

Lemma recording_has_start_time_witness :
  status recording = Recording /\ sessionStartTime recording <> None.
Proof.
  split; [reflexivity|].
  exact (proj1 (recording_has_start_time SummaryRequest echo recording
                  IndexFacts.recording_reachable eq_refl)).
Defined.

Lemma monitor_active_while_recording_witness :
  monitor_active recording = true /\
  renderContent recording = MainView /\
  monitor_active completed = false.
Proof.
  split; [reflexivity|]. split; [|reflexivity].
  exact (proj2 (monitor_active_while_recording SummaryRequest echo
                  recording IndexFacts.recording_reachable) eq_refl).
Defined.

Lemma complete_has_summary_witness :
  status completed = Complete /\ sessionSummary completed <> None.
Proof.
  split; [reflexivity|].
  exact (IndexFacts.complete_has_summary SummaryRequest echo completed
           IndexFacts.completed_reachable eq_refl).
Defined.

Lemma summary_invariant_preserved_witness :
  summary_iff_complete (run echo initial [ Approve true ]) /\
  summary_iff_complete (run echo initial [ Approve true; Start 0 ]) /\
  summary_iff_complete completed.
Proof.
  assert (H : summary_iff_complete (run echo initial [ Approve true ])).
  { split; [intros H; exfalso; apply H; reflexivity|discriminate]. }
  assert (H' : summary_iff_complete recording).
  { apply (IndexFacts.summary_invariant_preserved SummaryRequest echo
             (run echo initial [ Approve true ]) (Start 0) H).
    intros now _. reflexivity. }
  split; [exact H|]. split; [exact H'|].
  apply (IndexFacts.summary_invariant_preserved SummaryRequest echo
           recording (End 4500 (FocusMonitor.stats 0.5 0.5 3) "hello") H').
  intros now E. discriminate E.
Defined.

End SessionTraces.


(* ================================================================== *)
(** ** What the monitor shows *)
(* ================================================================== *)

Module MonitorDisplay.

Import FocusMonitor.
Local Open Scope string_scope.
Local Open Scope float_scope.

(** *** The reading follows the latest render *)

Lemma ticks_keep_interval rnds :
  forall m, interval (run m (map Tick rnds)) = interval m.
Proof.
  induction rnds as [|r rnds IH]; intros m; [reflexivity|].
  change (run m (map Tick (r :: rnds)))
    with (run (tick r m) (map Tick rnds)).
  rewrite IH. unfold tick.
  destruct (interval m) eqn:E; simpl; congruence.
Qed.

(** After a render that enables sampling, however many times the timer
    has fired, the published reading is the analysis of the telemetry of
    that render with the random value of the last firing: nothing of what
    was published before, nor of earlier firings, survives in it. *)
Theorem reading_follows_latest_render m p rnds rnd :
  sampling_enabled p = true ->
  reading (run m (Render p :: map Tick rnds ++ [Tick rnd]))
  = analyzeAttentiveness (focusStats p) rnd.
Proof.
  intros Hp.
  change (run m (Render p :: map Tick rnds ++ [Tick rnd]))
    with (run (effect p m) (map Tick rnds ++ [Tick rnd])).
  unfold run at 1. rewrite fold_left_app.
  fold (run (effect p m) (map Tick rnds)). simpl.
  unfold tick. rewrite ticks_keep_interval.
  unfold effect at 1. simpl. rewrite Hp.
  unfold reading. simpl.
  destruct (analyzeAttentiveness (focusStats p) rnd). reflexivity.
Qed.

(** *** Descriptions *)

Lemma pick_In arr rnd d : pick arr rnd = Some d -> In d arr.
Proof.
  unfold pick, JS.index.
  destruct (JS.Math_floor _) as [z|]; [|discriminate].
  destruct (z <? 0)%Z; [discriminate|]. apply nth_error_In.
Qed.

Lemma pick_defined arr rnd :
  List.length arr = 4%nat -> random_value rnd ->
  exists d, pick arr rnd = Some d.
Proof.
  intros Hlen [H0 H1]. unfold pick, JS.length_number. rewrite Hlen.
  change (of_uint63 (of_Z (Z.of_nat 4))) with 4.
  destruct (Binary64.floor_times_four rnd H0 H1) as (z & Hz & Hr).
  rewrite Hz. unfold JS.index.
  destruct (Z.ltb_spec z 0); [lia|].
  destruct (nth_error arr (Z.to_nat z)) as [d|] eqn:E; [exists d; reflexivity|].
  apply nth_error_None in E. lia.
Qed.

Lemma classify_description_In score posture t rnd d :
  description (classify score posture t rnd) = Some d ->
  In d (phrases (state (classify score posture t rnd)) t).
Proof.
  unfold classify.
  destruct (0.65 <? weighted score posture); simpl.
  - destruct (0.8 <? score); [intros [= <-]; left; reflexivity|].
    destruct (0.8 <? posture); [intros [= <-]; right; left; reflexivity|].
    intros H. right; right. exact (pick_In _ _ _ H).
  - destruct ((weighted score posture <? 0.4) || (5 <? t)%Z); simpl.
    + destruct (score <? 0.3); [intros [= <-]; left; reflexivity|].
      destruct (posture <? 0.3); [intros [= <-]; right; left; reflexivity|].
      destruct (5 <? t)%Z; [intros [= <-]; right; right; left; reflexivity|].
      intros H. right; right; right. exact (pick_In _ _ _ H).
    + intros [= <-]. left. reflexivity.
Qed.

(** Whenever a description is published it is one of the phrases of the
    published state: an attentive reading never carries a distraction
    phrase, and the seconds a distracted reading may report are the
    seconds distracted of the telemetry, read as 0 when missing. *)
Theorem description_among_phrases fs rnd d :
  description (analyzeAttentiveness fs rnd) = Some d ->
  In d (phrases (state (analyzeAttentiveness fs rnd))
                (JS.or_zeroZ (timeDistracted fs))).
Proof. apply classify_description_In. Qed.

(** For every value [Math.random()] can return, the analyser publishes a
    description: the random index never falls outside the four phrases
    it draws from. *)
Theorem description_always_defined fs rnd :
  random_value rnd ->
  exists d, description (analyzeAttentiveness fs rnd) = Some d.
Proof.
  intros Hr.
  unfold analyzeAttentiveness, classify.
  fold (score_of fs) (posture_of fs) (timeDistracted_of fs).
  destruct (0.65 <? weighted (score_of fs) (posture_of fs)); simpl.
  - destruct (0.8 <? score_of fs); [eexists; reflexivity|].
    destruct (0.8 <? posture_of fs); [eexists; reflexivity|].
    apply pick_defined; [reflexivity|exact Hr].
  - destruct ((weighted (score_of fs) (posture_of fs) <? 0.4)
              || (5 <? timeDistracted_of fs)%Z); simpl.
    + destruct (score_of fs <? 0.3); [eexists; reflexivity|].
      destruct (posture_of fs <? 0.3); [eexists; reflexivity|].
      destruct (5 <? timeDistracted_of fs)%Z; [eexists; reflexivity|].
      apply pick_defined; [reflexivity|exact Hr].
    + eexists; reflexivity.
Qed.

Lemma phrases_disjoint st1 t1 st2 t2 d :
  In d (phrases st1 t1) -> In d (phrases st2 t2) -> st1 = st2.
Proof.
  destruct st1, st2; try reflexivity; simpl; intros H1 H2;
    repeat match goal with
           | H : _ \/ _ |- _ => destruct H
           | H : False |- _ => destruct H
           end;
    subst; discriminate.
Qed.

(** The text identifies the state: two readings that carry the same
    description, whatever telemetry and random values they come from,
    are in the same state. *)
Theorem description_determines_state fs1 rnd1 fs2 rnd2 d :
  description (analyzeAttentiveness fs1 rnd1) = Some d ->
  description (analyzeAttentiveness fs2 rnd2) = Some d ->
  state (analyzeAttentiveness fs1 rnd1)
  = state (analyzeAttentiveness fs2 rnd2).
Proof.
  intros H1 H2.
  apply (phrases_disjoint _ (timeDistracted_of fs1)
                          _ (timeDistracted_of fs2) d).
  - exact (classify_description_In _ _ _ _ d H1).
  - exact (classify_description_In _ _ _ _ d H2).
Qed.

(** *** The focus meter *)

Lemma getFocusLevel_high x :
  getFocusLevel x = "bg-focus-high" <-> (0.8 <? x) = true.
Proof.
  unfold getFocusLevel. destruct (0.8 <? x); [tauto|].
  destruct (0.5 <? x); split; discriminate.
Qed.

Lemma getFocusLevel_low x :
  getFocusLevel x = "bg-focus-low" <->
  (0.8 <? x) = false /\ (0.5 <? x) = false.
Proof.
  unfold getFocusLevel. destruct (0.8 <? x).
  - split; [discriminate|]. intros [H _]; discriminate.
  - destruct (0.5 <? x); [|tauto].
    split; [discriminate|]. intros [_ H]; discriminate.
Qed.

(** The level of the meter is monotone in the score: a score at least as
    large as one shown high is shown high, and one at most as large as a
    score shown low is shown low. *)
Theorem getFocusLevel_monotone x y :
  (x <=? y) = true ->
  (getFocusLevel x = "bg-focus-high" -> getFocusLevel y = "bg-focus-high")
  /\
  (getFocusLevel y = "bg-focus-low" -> getFocusLevel x = "bg-focus-low").
Proof.
  intros Hxy. split.
  - rewrite !getFocusLevel_high. intros Hx.
    exact (Binary64.ltb_leb_trans 0.8 x y Hx Hxy).
  - rewrite !getFocusLevel_low. intros [H8 H5]. split.
    + destruct (0.8 <? x) eqn:E; [|reflexivity].
      rewrite (Binary64.ltb_leb_trans 0.8 x y E Hxy) in H8. discriminate.
    + destruct (0.5 <? x) eqn:E; [|reflexivity].
      rewrite (Binary64.ltb_leb_trans 0.5 x y E Hxy) in H5. discriminate.
Qed.

(** Defaulting a score with [|| 0] does not change how it compares with a
    positive threshold. *)
Lemma ltb_or_zero c x :
  (0 <? c) = true -> (c <? JS.or_zero x) = (c <? JS.to_number x).
Proof.
  intros Hc. destruct x as [v|]; simpl.
  - unfold JS.falsy.
    destruct (is_nan v) eqn:N; simpl.
    + rewrite (Binary64.ltb_nan_r c v N).
      apply (Binary64.ltb_zero_r c 0 Hc). reflexivity.
    + destruct (is_zero v) eqn:Z; [|reflexivity].
      rewrite (Binary64.ltb_zero_r c v Hc Z).
      apply (Binary64.ltb_zero_r c 0 Hc). reflexivity.
  - rewrite (Binary64.ltb_nan_r c nan eq_refl).
    apply (Binary64.ltb_zero_r c 0 Hc). reflexivity.
Qed.

(** The meter and the description agree on a strong score: an attentive
    reading says "Strong engagement detected" exactly when the meter of
    the same telemetry is at its high level. *)
Theorem strong_engagement_iff_meter_high fs rnd :
  state (analyzeAttentiveness fs rnd) = attentive ->
  (description (analyzeAttentiveness fs rnd)
     = Some "Strong engagement detected"
   <-> meter_class fs = "bg-focus-high").
Proof.
  unfold meter_class. rewrite getFocusLevel_high.
  rewrite <- (ltb_or_zero 0.8 (attentionScore fs) eq_refl).
  fold (score_of fs).
  unfold analyzeAttentiveness, classify.
  fold (score_of fs) (posture_of fs) (timeDistracted_of fs).
  destruct (0.65 <? weighted (score_of fs) (posture_of fs)); simpl.
  - intros _. destruct (0.8 <? score_of fs); [tauto|].
    split; [|discriminate].
    destruct (0.8 <? posture_of fs); [discriminate|].
    intros H. apply pick_In in H. simpl in H.
    repeat (destruct H as [H|H]; [discriminate H|]). destruct H.
  - destruct ((weighted (score_of fs) (posture_of fs) <? 0.4)
              || (5 <? timeDistracted_of fs)%Z); discriminate.
Qed.

(** Without a usable attention score (absent, [NaN] or zero) the meter
    is at its low level. *)
Theorem meter_low_without_score fs :
  missing (attentionScore fs) = true -> meter_class fs = "bg-focus-low".
Proof.
  intros Hm. unfold meter_class. apply getFocusLevel_low.
  rewrite <- (ltb_or_zero 0.8 (attentionScore fs) eq_refl).
  rewrite <- (ltb_or_zero 0.5 (attentionScore fs) eq_refl).
  destruct (attentionScore fs) as [v|]; simpl in *.
  - rewrite Hm. split; reflexivity.
  - split; reflexivity.
Qed.

(** *** Concrete runs *)

Lemma reading_follows_latest_render_witness :
  reading (run initial
               [ Render (mkProps true true true true (stats 0.9 0.9 0));
                 Tick 0;
                 Render (mkProps true true true true (stats 0.1 0.1 0));
                 Tick 0.25; Tick 0.5 ])
  = mkReading distracted (Some "Limited screen focus detected").
Proof.
  exact (reading_follows_latest_render
           (run initial
                [ Render (mkProps true true true true (stats 0.9 0.9 0));
                  Tick 0 ])
           (mkProps true true true true (stats 0.1 0.1 0))
           [0.25] 0.5 eq_refl).
Defined.

Lemma description_among_phrases_witness :
  In "Distracted for 12s"
     (phrases (state (analyzeAttentiveness (stats 0.5 0.5 12) 0)) 12).
Proof.
  exact (description_among_phrases (stats 0.5 0.5 12) 0
           "Distracted for 12s" eq_refl).
Defined.

Lemma description_always_defined_witness :
  random_value 0.75 /\
  exists d, description (analyzeAttentiveness (stats 0.7 0.7 0) 0.75)
            = Some d.
Proof.
  assert (H : random_value 0.75) by (split; reflexivity).
  split; [exact H|].
  exact (description_always_defined (stats 0.7 0.7 0) 0.75 H).
Defined.

Lemma description_determines_state_witness :
  state (analyzeAttentiveness (stats 0.7 0.7 0) 0.5)
  = state (analyzeAttentiveness (stats 0.75 0.6 3) 0.6).
Proof.
  exact (description_determines_state (stats 0.7 0.7 0) 0.5
           (stats 0.75 0.6 3) 0.6 "Focused facial orientation"
           eq_refl eq_refl).
Defined.

Lemma getFocusLevel_monotone_witness :
  getFocusLevel 0.85 = "bg-focus-high" /\
  getFocusLevel 0.9 = "bg-focus-high" /\
  getFocusLevel 0.3 = "bg-focus-low".
Proof.
  split; [reflexivity|]. split.
  - exact (proj1 (getFocusLevel_monotone 0.85 0.9 eq_refl) eq_refl).
  - exact (proj2 (getFocusLevel_monotone 0.3 0.5 eq_refl) eq_refl).
Defined.

Lemma strong_engagement_iff_meter_high_witness :
  meter_class (stats 0.9 0.5 0) = "bg-focus-high" /\
  description (analyzeAttentiveness (stats 0.9 0.5 0) 0)
  = Some "Strong engagement detected".
Proof.
  split; [reflexivity|].
  exact (proj2 (strong_engagement_iff_meter_high (stats 0.9 0.5 0) 0
                  eq_refl) eq_refl).
Defined.

Lemma meter_low_without_score_witness :
  meter_class (mkStats None (Some 0.9) (Some 0%Z)) = "bg-focus-low" /\
  meter_class (mkStats (Some nan) (Some 0.9) (Some 0%Z)) = "bg-focus-low".
Proof.
  split.
  - exact (meter_low_without_score (mkStats None (Some 0.9) (Some 0%Z))
             eq_refl).
  - exact (meter_low_without_score (mkStats (Some nan) (Some 0.9) (Some 0%Z))
             eq_refl).
Defined.

End MonitorDisplay.
